(** * Sales ingestion and presentation

    A shallow embedding of [task_two_clean_data.py] (Ingestion) and
    [task_three_visualize.py] (Presentation), and the properties of the
    specification checked against it.

    The two scripts are thin layers over pandas.  What pandas does is modelled
    here as far as the scripts use it:
    - a [float64] value is a [spec_float] of the binary64 format, with the
      correctly rounded operations of [SpecFloat];
    - an [int64] value is a [Z] with the two's complement wrap-around written
      out ([wrap64]);
    - a cell of an object column is a Python object ([pyobj]); a missing value
      is the float NaN, as in pandas;
    - an exception is a value of [exn]; code that may raise returns a [res].

    Limits of the model, stated once:
    - the [price] column of an input file and the three columns of the
      artifact are object columns holding strings or NaN (the data model of
      the specification: a price is a currency-formatted string);
    - [pd.to_numeric] is modelled on plain decimal literals (optional sign,
      digits, optional fractional part), converted with correct rounding.
      The model is the function of pandas on the strings of [modelled_price]:
      short plain decimals, and strings that no parser reads as a number.
      On exponents, infinities, padded numerals and integers outside the
      int64 range it is not, and the properties that depend on the
      difference carry [modelled_price] as a hypothesis;
    - the dtype of a quantity column is inferred for integers of the int64
      range, floats and strings ([readable_quantity] names the numeric
      cells); larger integers are outside the model;
    - [astype(str)] turns NaN into the string [nan], as pandas 2 does;
    - the result of [process_sales_data] is the frame it hands to [to_csv];
      the write to disk itself is outside the model;
    - [pd.to_datetime] is a parameter of the Presentation section, and so is
      the float summation of [groupby(...).sum()], of which [kahan_sum] is
      the algorithm of pandas. *)

From Stdlib Require Import ZArith List String Ascii Bool Lia QArith Permutation Sorted.
From Stdlib Require Import Floats.SpecFloat DecimalString.
Import ListNotations.

Set Implicit Arguments.

(* ------------------------------------------------------------------ *)
(** ** Exceptions *)

Inductive exn : Type :=
| EmptyDataError            (* pandas.errors.EmptyDataError *)
| FileNotFoundError
| ParserError               (* any other failure of pd.read_csv *)
| KeyError (key : string)
| TypeError
| ValueError
| IntCastingNaNError.       (* astype(int) on a non-finite float *)

Inductive res (A : Type) : Type :=
| Ok (a : A)
| Raise (e : exn).

Arguments Ok {A} a.
Arguments Raise {A} e.

Definition bind {A B} (m : res A) (k : A -> res B) : res B :=
  match m with
  | Ok a => k a
  | Raise e => Raise e
  end.

Notation "x <- m ;; k" := (bind m (fun x => k))
  (at level 61, m at next level, right associativity).

Fixpoint mapM {A B} (f : A -> res B) (l : list A) : res (list B) :=
  match l with
  | [] => Ok []
  | a :: l' => b <- f a ;; bs <- mapM f l' ;; Ok (b :: bs)
  end.

(* ------------------------------------------------------------------ *)
(** ** binary64 floats and int64 integers *)

Module Float64.
Local Open Scope Z_scope.

Definition float := spec_float.

Definition prec : Z := 53.
Definition emax : Z := 1024.

Definition mul : float -> float -> float := SFmul prec emax.
Definition div : float -> float -> float := SFdiv prec emax.
Definition add : float -> float -> float := SFadd prec emax.
Definition sub : float -> float -> float := SFsub prec emax.

(** The float nearest to an integer (ties to even). *)
Definition of_Z (z : Z) : float := binary_normalize prec emax z 0 false.

(** The float nearest to the fraction [n / d], for [0 <= n] and [0 < d],
    with sign [neg]: one correctly rounded division. *)
Definition of_ratio (neg : bool) (n d : Z) : float :=
  match n with
  | Z0 => S754_zero neg
  | _ => let '(q, e, l) := SFdiv_core_binary prec emax n 0 d 0 in
         binary_round_aux prec emax neg q e l
  end.

Definition nan : float := S754_nan.
Definition zero : float := S754_zero false.

Definition is_nan (f : float) : bool :=
  match f with S754_nan => true | _ => false end.

Definition is_finite (f : float) : bool :=
  match f with
  | S754_zero _ | S754_finite _ _ _ => true
  | _ => false
  end.


Definition sign (f : float) : bool :=
  match f with
  | S754_zero s | S754_infinity s | S754_finite s _ _ => s
  | S754_nan => false
  end.

(** The integer part of a finite float, rounded toward zero. *)
Definition trunc (f : float) : Z :=
  match f with
  | S754_finite s m e => cond_Zopp s (Z.shiftl (Zpos m) e)
  | _ => 0
  end.

(** The integer nearest to [n / d], ties to even, for [0 <= n] and [0 < d]. *)
Definition round_half_even (n d : Z) : Z :=
  let q := n / d in
  let r := n mod d in
  match (2 * r ?= d) with
  | Lt => q
  | Gt => q + 1
  | Eq => if Z.even q then q else q + 1
  end.

(** [100 * |f|] rounded to the nearest integer, ties to even: the digits that
    the format [.2f] prints for a finite [f]. *)
Definition hundredths (f : float) : Z :=
  match f with
  | S754_finite _ m e =>
      match e with
      | Zneg k => round_half_even (Zpos m * 100) (Zpos (Pos.shiftl 1 (Npos k)))
      | _ => Z.shiftl (Zpos m) e * 100
      end
  | _ => 0
  end.
End Float64.

Abbreviation float := Float64.float.

Module Int64.
Local Open Scope Z_scope.

Definition min_int : Z := - 2 ^ 63.
Definition max_int : Z := 2 ^ 63 - 1.

Definition in_range (z : Z) : bool := (min_int <=? z) && (z <=? max_int).

(** Two's complement wrap-around of int64 arithmetic. *)
Definition wrap64 (z : Z) : Z := (z + 2 ^ 63) mod 2 ^ 64 - 2 ^ 63.

(** The conversion of a finite float64 to int64 (numpy [astype(int)]):
    truncation toward zero; outside the int64 range the x86-64 conversion
    instruction returns the smallest int64. *)
Definition of_float (f : float) : Z :=
  let t := Float64.trunc f in
  if in_range t then t else min_int.
End Int64.

(* ------------------------------------------------------------------ *)
(** ** Python strings *)

Module PyStr.
Local Open Scope string_scope.

(** [s[start:]], also pandas' [.str.slice(start)], for [start >= 0]. *)
Fixpoint slice (start : nat) (s : string) : string :=
  match start, s with
  | O, _ => s
  | S n, EmptyString => EmptyString
  | S n, String _ s' => slice n s'
  end.

(** [s[0]] of a non-empty string. *)
Definition first_char (s : string) : string :=
  match s with
  | EmptyString => EmptyString
  | String c _ => String c EmptyString
  end.

(** Truth value of a string: non-empty. *)
Definition truthy (s : string) : bool :=
  match s with EmptyString => false | _ => true end.

Definition len (s : string) : nat := String.length s.

Definition lower_char (c : ascii) : ascii :=
  let n := nat_of_ascii c in
  if (65 <=? n)%nat && (n <=? 90)%nat then ascii_of_nat (n + 32) else c.

(** [s.replace(' ', '_').lower()] on ASCII letters. *)
Fixpoint replace_space_lower (s : string) : string :=
  match s with
  | EmptyString => EmptyString
  | String c s' =>
      String (if Ascii.eqb c " "%char then "_"%char else lower_char c)
             (replace_space_lower s')
  end.

(** [n * s] for an integer [n]: repetition, empty when [n <= 0]. *)
Fixpoint repeat_nat (n : nat) (s : string) : string :=
  match n with
  | O => EmptyString
  | S n' => s ++ repeat_nat n' s
  end.

Definition repeat (n : Z) (s : string) : string := repeat_nat (Z.to_nat n) s.

(** Decimal numeral of a natural number. *)
Definition of_N (n : N) : string := NilZero.string_of_uint (N.to_uint n).
End PyStr.

(* ------------------------------------------------------------------ *)
(** ** Decimal literals: [pd.to_numeric] on one string, and the format [.2f] *)

Module Literal.
Local Open Scope Z_scope.

Definition is_digit (c : ascii) : bool :=
  let n := nat_of_ascii c in ((48 <=? n)%nat && (n <=? 57)%nat)%bool.

Definition digit_val (c : ascii) : Z := Z.of_nat (nat_of_ascii c) - 48.

(** Reads a (possibly empty) run of digits: its value continuing [acc],
    how many digits were read, and the rest of the string. *)
Fixpoint digits (s : string) (acc : Z) (count : nat) : Z * nat * string :=
  match s with
  | String c s' =>
      if is_digit c then digits s' (10 * acc + digit_val c) (S count)
      else (acc, count, s)
  | EmptyString => (acc, count, s)
  end.

(** A plain decimal literal: [(-1)^neg * mant / 10^frac]. *)
Record literal := {
  neg : bool;
  mant : Z;
  frac : nat;
  has_point : bool
}.

Definition read_sign (s : string) : bool * string :=
  match s with
  | String "-"%char s' => (true, s')
  | String "+"%char s' => (false, s')
  | _ => (false, s)
  end.

Definition parse (s : string) : option literal :=
  let '(sg, s1) := read_sign s in
  let '(ip, n1, s2) := digits s1 0 0 in
  match s2 with
  | EmptyString =>
      if (0 <? n1)%nat then Some {| neg := sg; mant := ip; frac := 0; has_point := false |}
      else None
  | String "."%char s3 =>
      let '(m, n2, s4) := digits s3 ip 0 in
      match s4 with
      | EmptyString =>
          if (0 <? n1 + n2)%nat
          then Some {| neg := sg; mant := m; frac := n2; has_point := true |}
          else None
      | _ => None
      end
  | _ => None
  end.

(** The exact value of a literal. *)
Definition value (l : literal) : Q :=
  Qmake (if neg l then - mant l else mant l) (Z.to_pos (10 ^ Z.of_nat (frac l))).

(** The float64 nearest to a literal. *)
Definition to_float (l : literal) : float :=
  Float64.of_ratio (neg l) (mant l) (10 ^ Z.of_nat (frac l)).

(** Python's [format(x, ".2f")]. *)
Definition two_digits (n : Z) : string :=
  if n <? 10 then ("0" ++ PyStr.of_N (Z.to_N n))%string else PyStr.of_N (Z.to_N n).

Definition format_2f (x : float) : string :=
  match x with
  | S754_nan => "nan"%string
  | S754_infinity s => (if s then "-inf" else "inf")%string
  | _ =>
      let h := Float64.hundredths x in
      ((if Float64.sign x then "-" else EmptyString)
         ++ PyStr.of_N (Z.to_N (h / 100)) ++ "." ++ two_digits (h mod 100))%string
  end.
End Literal.

(* ------------------------------------------------------------------ *)
(** ** pandas: cells, numeric series, data frames *)

(** A Python object held by a cell of a column.  A missing value is
    [PyFloat nan]. *)
Inductive pyobj : Type :=
| PyInt (z : Z)
| PyFloat (f : float)
| PyStr (s : string).

Inductive dtype : Type := int64 | float64 | object.

Module Pandas.
Local Open Scope Z_scope.

(** [dropna] on an object column of strings. *)
Fixpoint dropna {A} (col : list (option A)) : list A :=
  match col with
  | [] => []
  | Some a :: col' => a :: dropna col'
  | None :: col' => dropna col'
  end.

(** [astype(str)] on a cell of an object column of strings: NaN becomes
    the string [nan].  This is pandas 2; pandas 3 reads such a column with
    the string dtype and keeps the missing value.  In Ingestion the two
    agree on the result: the cell goes through [str.slice] and
    [pd.to_numeric], which give NaN either way. *)
Definition astype_str (cell : option string) : string :=
  match cell with
  | Some s => s
  | None => "nan"%string
  end.

(** One value of a numeric column. *)
Inductive scalar : Type :=
| SInt (z : Z)
| SFloat (f : float).

Definition as_float (x : scalar) : float :=
  match x with
  | SInt z => Float64.of_Z z
  | SFloat f => f
  end.

(** [pd.to_numeric(_, errors='coerce')] on one string: an integer literal
    that fits int64 is an integer, any other decimal literal a float, and
    what does not parse (or overflows) is NaN.  pandas reads more strings as
    numbers than these literals (exponents, infinities, surrounding white
    space); the model is exact on the strings of [modelled_price] below. *)
Definition to_numeric_scalar (s : string) : scalar :=
  match Literal.parse s with
  | Some l =>
      let z := if Literal.neg l then - Literal.mant l else Literal.mant l in
      if negb (Literal.has_point l) && Int64.in_range z then SInt z
      else
        let f := Literal.to_float l in
        if Float64.is_finite f then SFloat f else SFloat Float64.nan
  | None => SFloat Float64.nan
  end.

(** A numeric column: int64 when every value is an integer, else float64. *)
Inductive series : Type :=
| Int64 (v : list Z)
| Float64 (v : list float).

Fixpoint all_ints (l : list scalar) : option (list Z) :=
  match l with
  | [] => Some []
  | SInt z :: l' => option_map (cons z) (all_ints l')
  | SFloat _ :: _ => None
  end.

Definition to_series (xs : list scalar) : series :=
  match all_ints xs with
  | Some zs => Int64 zs
  | None => Float64 (map as_float xs)
  end.

Definition to_numeric (col : list string) : series :=
  to_series (map to_numeric_scalar col).

(** [.fillna(0)] on a numeric column. *)
Definition fillna_0 (s : series) : series :=
  match s with
  | Int64 v => Int64 v
  | Float64 v => Float64 (map (fun f => if Float64.is_nan f then Float64.zero else f) v)
  end.

(** [_ * 100] on a numeric column. *)
Definition times_100 (s : series) : series :=
  match s with
  | Int64 v => Int64 (map (fun z => Int64.wrap64 (z * 100)) v)
  | Float64 v => Float64 (map (fun f => Float64.mul f (Float64.of_Z 100)) v)
  end.

(** [.astype(int)]: pandas refuses a float column with a non-finite
    value. *)
Definition astype_int (s : series) : res (list Z) :=
  match s with
  | Int64 v => Ok v
  | Float64 v =>
      if forallb Float64.is_finite v then Ok (map Int64.of_float v)
      else Raise IntCastingNaNError
  end.

(** The dtype pandas gives a column holding these objects, for integers of
    the int64 range: a column with a larger integer is read as uint64 or as
    objects, which the model leaves out. *)
Definition is_str (x : pyobj) : bool :=
  match x with PyStr _ => true | _ => false end.

Definition is_float (x : pyobj) : bool :=
  match x with PyFloat _ => true | _ => false end.

Definition infer_dtype (col : list pyobj) : dtype :=
  if existsb is_str col then object
  else if existsb is_float col then float64
  else int64.

(** [.fillna(0)] on one cell of a column of the given dtype. *)
Definition fillna_0_cell (dt : dtype) (x : pyobj) : pyobj :=
  match x with
  | PyFloat f =>
      if Float64.is_nan f
      then match dt with
           | object => PyInt 0
           | _ => PyFloat Float64.zero
           end
      else x
  | _ => x
  end.

(** [c * x] for an int64 [c] and a cell [x] of a column of the given
    dtype: int64 arithmetic wraps, float64 arithmetic rounds, and in an
    object column Python multiplies (an integer times a string repeats
    the string). *)
Definition mul_cell (dt : dtype) (c : Z) (x : pyobj) : pyobj :=
  match x with
  | PyInt z =>
      match dt with
      | int64 => PyInt (Int64.wrap64 (c * z))
      | float64 => PyFloat (Float64.mul (Float64.of_Z c) (Float64.of_Z z))
      | object => PyInt (c * z)
      end
  | PyFloat f => PyFloat (Float64.mul (Float64.of_Z c) f)
  | PyStr s => PyStr (PyStr.repeat c s)
  end.

(** [x / 100.0]: a string cannot be divided. *)
Definition truediv_100 (x : pyobj) : res float :=
  match x with
  | PyInt n => Ok (Float64.div (Float64.of_Z n) (Float64.of_Z 100))
  | PyFloat f => Ok (Float64.div f (Float64.of_Z 100))
  | PyStr _ => Raise TypeError
  end.
End Pandas.

(* ------------------------------------------------------------------ *)
(** ** Ingestion: [task_two_clean_data.py] *)

Module Ingestion.
Import Pandas.
Local Open Scope string_scope.

(** A transaction record as [pd.read_csv] returns it. *)
Record row : Type := {
  product : option string;
  price : option string;
  quantity : pyobj;
  date : option string;
  region : option string
}.

(** A data frame: the names of its columns and its rows.  A cell of a
    column that is not named is never read. *)
Record dataframe : Type := {
  columns : list string;
  rows : list row
}.

(** What [pd.read_csv(file_path)] does on a file. *)
Definition csv_file : Type := res dataframe.

(** [glob.glob(os.path.join(data_dir, '*.csv'))], files in enumeration
    order. *)
Definition filesystem : Type := string -> list csv_file.

(** The configuration: the dict loaded from the YAML file. *)
Definition config : Type := list (string * string).

Fixpoint get (c : config) (key default : string) : string :=
  match c with
  | [] => default
  | (k, v) :: c' => if String.eqb k key then v else get c' key default
  end.

(** [df[name]]: KeyError when the frame has no such column. *)
Definition getitem {A} (cols : list string) (rs : list row) (name : string)
    (cell : row -> A) : res (list A) :=
  if existsb (String.eqb name) cols then Ok (map cell rs)
  else Raise (KeyError name).

(** [df['product'] == product_filter] on one row. *)
Definition matches (product_filter : string) (r : row) : bool :=
  match product r with
  | Some s => String.eqb s product_filter
  | None => false
  end.

(** Line 80: the first price that is not NaN, if any. *)
Definition first_price_string (prices : list (option string)) : option string :=
  match dropna prices with
  | s :: _ => Some s
  | [] => None
  end.

(** Lines 82-89: the symbol and the slice index chosen from the first
    price. *)
Definition detect (default_symbol : string) (first : option string) : string * nat :=
  match first with
  | Some s =>
      if PyStr.truthy s && (0 <? PyStr.len s)%nat
      then (PyStr.first_char s, 1%nat)
      else (default_symbol, 0%nat)
  | None => (default_symbol, 0%nat)
  end.

(** Lines 79-95: the symbol after this file and the slice index for it. *)
Definition symbol_and_slice (default_symbol : string)
    (currency_symbol : option string) (cols : list string) (pink : list row)
    : res (string * nat) :=
  match currency_symbol with
  | None =>
      prices <- getitem cols pink "price" price ;;
      Ok (detect default_symbol (first_price_string prices))
  | Some c =>
      Ok (c, if negb (String.eqb c default_symbol) then 1%nat else 0%nat)
  end.

(** Lines 98-107: the unit prices of the rows in cents. *)
Definition price_cents (slice_start_index : nat) (prices : list (option string))
    : res (list Z) :=
  let price_clean_str :=
    map (fun p => PyStr.slice slice_start_index (astype_str p)) prices in
  let price_numeric := fillna_0 (to_numeric price_clean_str) in
  astype_int (times_100 price_numeric).

(** A row of [summary_df]. *)
Record summary_row : Type := {
  sales : float;
  s_date : option string;
  s_region : option string
}.

(** Lines 98-121, after the slice index is known. *)
Definition summarize (cols : list string) (qdtype : dtype) (pink : list row)
    (slice_start_index : nat) : res (list summary_row) :=
  prices <- getitem cols pink "price" price ;;
  cents <- price_cents slice_start_index prices ;;
  quantity <- getitem cols pink "quantity" (fun r => fillna_0_cell qdtype (quantity r)) ;;
  let sales_cents := map (fun cq => mul_cell qdtype (fst cq) (snd cq)) (combine cents quantity) in
  sales_numeric <- mapM truediv_100 sales_cents ;;
  dates <- getitem cols pink "date" date ;;
  regions <- getitem cols pink "region" region ;;
  Ok (map (fun x => {| sales := fst x; s_date := fst (snd x); s_region := snd (snd x) |})
          (combine sales_numeric (combine dates regions))).

(** The body of the loop over the files (lines 62-132), on one file: the
    currency symbol after it, and either the exception the handlers catch,
    or [None] when the file is skipped by [continue], or its summary. *)
Definition process_file (product_filter default_symbol : string)
    (currency_symbol : option string) (file : csv_file)
    : option string * res (option (list summary_row)) :=
  match file with
  | Raise e => (currency_symbol, Raise e)
  | Ok df =>
      match getitem (columns df) (rows df) "product" product with
      | Raise e => (currency_symbol, Raise e)
      | Ok _ =>
          let pink_morsel_df := filter (matches product_filter) (rows df) in
          match pink_morsel_df with
          | [] => (currency_symbol, Ok None)
          | _ :: _ =>
              match symbol_and_slice default_symbol currency_symbol
                      (columns df) pink_morsel_df with
              | Raise e => (currency_symbol, Raise e)
              | Ok (symbol, slice_start_index) =>
                  (Some symbol,
                   summary_df <- summarize (columns df)
                                   (infer_dtype (map quantity (rows df)))
                                   pink_morsel_df slice_start_index ;;
                   Ok (Some summary_df))
              end
          end
      end
  end.

(** One iteration of the loop on the state [(currency_symbol,
    all_filtered_data)]. *)
Definition step (product_filter default_symbol : string)
    (st : option string * list (list summary_row)) (file : csv_file)
    : option string * list (list summary_row) :=
  let '(symbol, result) := process_file product_filter default_symbol (fst st) file in
  match result with
  | Ok (Some summary_df) => (symbol, (snd st ++ [summary_df])%list)
  | Ok None => (symbol, snd st)
  | Raise _ => (symbol, snd st)
  end.

(** A record of the output artifact. *)
Record sales_record : Type := {
  a_sales : string;
  a_date : option string;
  a_region : option string
}.

Record artifact : Type := {
  output_file : string;
  records : list sales_record
}.

(** Line 149: [f"{currency_symbol}{x:.2f}"]. *)
Definition format_sales (currency_symbol : string) (r : summary_row) : sales_record :=
  {| a_sales := currency_symbol ++ Literal.format_2f (sales r);
     a_date := s_date r;
     a_region := s_region r |}.

(** The loop over the files, from the initial state. *)
Definition run_loop (product_filter default_symbol : string) (csv_files : list csv_file)
    : option string * list (list summary_row) :=
  fold_left (step product_filter default_symbol) csv_files (None, []).

(** [process_sales_data(config)]: the artifact handed to [to_csv] at line
    153, or [None] when the function returns before that line.  The write
    itself, which raises when the output path cannot be written, is not
    modelled: [Ok (Some a)] reads as the function reaching line 153 with the
    frame [a]. *)
Definition process_sales_data (glob : filesystem) (cfg : config) : res (option artifact) :=
  let data_dir := get cfg "data_directory" "data" in
  let product_filter := get cfg "product_filter" "pink morsel" in
  let default_symbol := get cfg "default_currency_symbol" "$" in
  let output_file := PyStr.replace_space_lower product_filter ++ "_sales_summary.csv" in
  let csv_files := glob data_dir in
  match csv_files with
  | [] => Ok None
  | _ :: _ =>
      let '(currency_symbol, all_filtered_data) :=
        run_loop product_filter default_symbol csv_files in
      match all_filtered_data with
      | [] => Ok None
      | _ :: _ =>
          let final_summary_df := List.concat all_filtered_data in
          let currency_symbol :=
            match currency_symbol with
            | None => default_symbol
            | Some c => c
            end in
          Ok (Some {| output_file := output_file;
                      records := map (format_sales currency_symbol) final_summary_df |})
      end
  end.
End Ingestion.

(* ------------------------------------------------------------------ *)
(** ** Presentation: [task_three_visualize.py] *)

Module Presentation.
Import Pandas.
Local Open Scope string_scope.

Definition DATA_FILE : string := "pink_morsel_sales_summary.csv".
Definition DEFAULT_CURRENCY_SYMBOL : string := "$".

(** A record of the artifact as [pd.read_csv] returns it. *)
Record record : Type := {
  sales : option string;
  date : option string;
  region : option string
}.

(** The artifact on disk: absent ([os.path.exists] is false), or what
    [pd.read_csv] does on it. *)
Inductive artifact_file : Type :=
| Absent
| Present (read_csv : res (list record)).

(** A row of the frame [load_and_clean_data] returns. *)
Record clean_row : Type := {
  Sales_Value : scalar;
  c_date : option Z;
  c_region : option string
}.

(** The frame [load_and_clean_data] returns: the frame built by
    [pd.DataFrame({'sales': [], 'date': [], 'region': []})], which has no
    column [Sales_Value], or the cleaned frame. *)
Inductive frame : Type :=
| EmptyFrame
| Cleaned (rows : list clean_row).

(** A row of [daily_sales]. *)
Record point : Type := {
  p_date : Z;
  p_region : string;
  total : scalar
}.

(** Line 29: the first value of the column as a string, when the column
    has a value that is not NaN. *)
Definition first_sales_value (col : list (option string)) : option string :=
  match dropna col with
  | [] => None
  | _ :: _ => hd_error (map astype_str col)
  end.

(** Lines 31-37. *)
Definition detect (first : option string) : string * nat :=
  match first with
  | Some s =>
      if PyStr.truthy s && (1 <? PyStr.len s)%nat
      then (PyStr.first_char s, 1%nat)
      else (DEFAULT_CURRENCY_SYMBOL, 0%nat)
  | None => (DEFAULT_CURRENCY_SYMBOL, 0%nat)
  end.

Definition cells (s : series) : list scalar :=
  match s with
  | Int64 v => map SInt v
  | Float64 v => map SFloat v
  end.

(** The keys of a row in [groupby(['date', 'region'])]; a row with a
    missing key is in no group. *)
Definition key : Type := Z * string.

Definition key_of (r : clean_row) : option key :=
  match c_date r, c_region r with
  | Some d, Some g => Some (d, g)
  | _, _ => None
  end.

Definition key_eq_dec (a b : key) : {a = b} + {a <> b}.
Proof. decide equality; [apply string_dec | apply Z.eq_dec]. Defined.

Definition in_group (k : key) (r : clean_row) : bool :=
  match key_of r with
  | Some k' => (fst k' =? fst k)%Z && String.eqb (snd k') (snd k)
  | None => false
  end.

(** The order of the groups: by date, then by region. *)
Definition key_leb (a b : key) : bool :=
  (fst a <? fst b)%Z || ((fst a =? fst b)%Z && String.leb (snd a) (snd b)).

Fixpoint insert (k : key) (l : list key) : list key :=
  match l with
  | [] => [k]
  | k' :: l' => if key_leb k k' then k :: l else k' :: insert k l'
  end.

Fixpoint sort (l : list key) : list key :=
  match l with
  | [] => []
  | k :: l' => insert k (sort l')
  end.

Definition group_keys (rows : list clean_row) : list key :=
  sort (nodup key_eq_dec (dropna (map key_of rows))).

Section WithPandas.
(** [pd.to_datetime] on one string: a timestamp, or [None] when the
    string is not a date. *)
Variable to_datetime_scalar : string -> option Z.

(** The sum of the float64 values of a group, in row order. *)
Variable float_sum : list float -> float.

(** [pd.to_datetime] on one cell: NaN becomes NaT, and a string that is
    not a date raises. *)
Definition to_datetime (cell : option string) : res (option Z) :=
  match cell with
  | None => Ok None
  | Some s =>
      match to_datetime_scalar s with
      | Some t => Ok (Some t)
      | None => Raise ValueError
      end
  end.

(** [load_and_clean_data(file_path)]. *)
Definition load_and_clean_data (file : artifact_file) : res (frame * string) :=
  match file with
  | Absent => Ok (EmptyFrame, DEFAULT_CURRENCY_SYMBOL)
  | Present read_csv =>
      df <- read_csv ;;
      match df with
      | [] => Ok (EmptyFrame, DEFAULT_CURRENCY_SYMBOL)
      | _ :: _ =>
          let '(currency_symbol, slice_start_index) :=
            detect (first_sales_value (map sales df)) in
          let sales_value :=
            fillna_0 (to_numeric
              (map (fun r => PyStr.slice slice_start_index (astype_str (sales r))) df)) in
          dates <- mapM to_datetime (map date df) ;;
          Ok (Cleaned
                (map (fun x => {| Sales_Value := fst x;
                                  c_date := fst (snd x);
                                  c_region := snd (snd x) |})
                     (combine (cells sales_value) (combine dates (map region df)))),
              currency_symbol)
      end
  end.

(** [.sum()] of the values of one group: int64 addition wraps. *)
Definition sum_values (vs : list scalar) : scalar :=
  match all_ints vs with
  | Some zs => SInt (Int64.wrap64 (fold_left Z.add zs 0%Z))
  | None => SFloat (float_sum (map as_float vs))
  end.

(** Line 56:
    [df.groupby(['date', 'region'])['Sales_Value'].sum().reset_index()]. *)
Definition daily_sales (df : frame) : res (list point) :=
  match df with
  | EmptyFrame => Raise (KeyError "Column not found: Sales_Value")
  | Cleaned rows =>
      Ok (map (fun k => {| p_date := fst k;
                           p_region := snd k;
                           total := sum_values
                                      (map Sales_Value (filter (in_group k) rows)) |})
              (group_keys rows))
  end.

(** The data computed when the module is loaded (lines 53-57): the table
    handed to the chart and the symbol of its axis label. *)
Definition chart_data (file : artifact_file) : res (list point * string) :=
  x <- load_and_clean_data file ;;
  daily <- daily_sales (fst x) ;;
  Ok (daily, snd x).
End WithPandas.

(** The float64 sum of a group as pandas' [group_sum] computes it:
    compensated (Kahan) summation in row order, NaN values skipped, a NaN
    compensation reset to zero. *)
Definition kahan_step (st : float * float) (val : float) : float * float :=
  if Float64.is_nan val then st
  else
    let '(sumx, compensation) := st in
    let y := Float64.sub val compensation in
    let t := Float64.add sumx y in
    let c := Float64.sub (Float64.sub t sumx) y in
    (t, if Float64.is_nan c then Float64.zero else c).

Definition kahan_sum (l : list float) : float :=
  fst (fold_left kahan_step l (Float64.zero, Float64.zero)).

(** A date [YYYY-MM-DD] as the number [YYYYMMDD]: on such dates an
    injective, order-preserving stand-in for the timestamp. *)
Definition iso_date (s : string) : option Z :=
  match s with
  | String y1 (String y2 (String y3 (String y4 (String "-" (String m1 (String m2
      (String "-" (String d1 (String d2 EmptyString))))))))) =>
      if forallb Literal.is_digit [y1; y2; y3; y4; m1; m2; d1; d2]
      then Some (fold_left (fun a c => 10 * a + Literal.digit_val c)
                           [y1; y2; y3; y4; m1; m2; d1; d2] 0)%Z
      else None
  | _ => None
  end.
End Presentation.

(* ------------------------------------------------------------------ *)
(** ** Concrete inputs *)

Module Scenario.
Import Ingestion.
Local Open Scope string_scope.

Definition required_columns : list string :=
  ["product"; "price"; "quantity"; "date"; "region"].

Definition transaction (p pr : string) (q : Z) (d g : string) : row :=
  {| product := Some p; price := Some pr; quantity := PyInt q;
     date := Some d; region := Some g |}.

Definition frame_of (rs : list row) : csv_file :=
  Ok {| columns := required_columns; rows := rs |}.

(** The input file of the end-to-end scenario of the specification. *)
Definition morsels : csv_file :=
  frame_of [transaction "pink morsel" "$3.00" 5 "2020-01-01" "north";
            transaction "pink morsel" "$2.00" 3 "2020-01-01" "north";
            transaction "choc" "$5.00" 2 "2020-01-01" "north"].

Definition one_sale (pr : string) (q : Z) : csv_file :=
  frame_of [transaction "pink morsel" pr q "2020-01-01" "north"].

(** A file system whose data directory lists the given files. *)
Definition directory (files : list csv_file) : filesystem := fun _ => files.

Definition sold (s : string) : sales_record :=
  {| a_sales := s; a_date := Some "2020-01-01"; a_region := Some "north" |}.

Definition written (rs : list sales_record) : res (option artifact) :=
  Ok (Some {| output_file := "pink_morsel_sales_summary.csv"; records := rs |}).

Definition stored (s : string) : Presentation.record :=
  {| Presentation.sales := Some s;
     Presentation.date := Some "2020-01-01";
     Presentation.region := Some "north" |}.
End Scenario.

(* ------------------------------------------------------------------ *)
(** ** Vocabulary of the properties *)

Import Pandas.
Local Open Scope string_scope.
Local Open Scope list_scope.

(** A file that the loop leaves before symbol detection: it cannot be read,
    has no column [product], or has no row of the product. *)
Definition no_qualifying_rows (product_filter : string) (file : Ingestion.csv_file) : bool :=
  match file with
  | Raise _ => true
  | Ok df =>
      negb (existsb (String.eqb "product") (Ingestion.columns df))
      || match filter (Ingestion.matches product_filter) (Ingestion.rows df) with
         | [] => true
         | _ :: _ => false
         end
  end.

(** What the function does after the loop (lines 134-156). *)
Definition finish (product_filter default_symbol : string)
    (st : option string * list (list Ingestion.summary_row))
    : res (option Ingestion.artifact) :=
  match snd st with
  | [] => Ok None
  | _ :: _ =>
      Ok (Some {| Ingestion.output_file :=
                    (PyStr.replace_space_lower product_filter ++ "_sales_summary.csv")%string;
                  Ingestion.records :=
                    map (Ingestion.format_sales
                           (match fst st with
                            | None => default_symbol
                            | Some c => c
                            end))
                        (List.concat (snd st)) |})
  end.

(** The symbol and the summary rows at the end of the loop of a run. *)
Definition run_symbol (glob : Ingestion.filesystem) (cfg : Ingestion.config) : string :=
  match fst (Ingestion.run_loop (Ingestion.get cfg "product_filter" "pink morsel")
                                (Ingestion.get cfg "default_currency_symbol" "$")
                                (glob (Ingestion.get cfg "data_directory" "data"))) with
  | Some detected => detected
  | None => Ingestion.get cfg "default_currency_symbol" "$"
  end.




Fixpoint all_digits (s : string) : bool :=
  match s with
  | EmptyString => true
  | String c s' => Literal.is_digit c && all_digits s'
  end.

(** A fixed two-decimal numeral: an optional minus sign, at least one digit,
    a point, two digits. *)
Definition fixed_two_decimal (s : string) : Prop :=
  exists sign int_part d1 d2,
    s = (sign ++ int_part ++ "." ++ String d1 (String d2 EmptyString))%string /\
    (sign = EmptyString \/ sign = "-") /\
    int_part <> EmptyString /\
    all_digits int_part = true /\
    Literal.is_digit d1 = true /\
    Literal.is_digit d2 = true.

(** The two digits after the point are two digits (checked on 0..99). *)
Definition two_digits_ok (n : nat) : bool :=
  match Literal.two_digits (Z.of_nat n) with
  | String d1 (String d2 EmptyString) => Literal.is_digit d1 && Literal.is_digit d2
  | _ => false
  end.

(* ------------------------------------------------------------------ *)
(** ** Further vocabulary *)

(** The rows of the product in a file; none when it cannot be read. *)
Definition matching_rows (product_filter : string) (file : Ingestion.csv_file)
    : list Ingestion.row :=
  match file with
  | Ok df => filter (Ingestion.matches product_filter) (Ingestion.rows df)
  | Raise _ => []
  end.

(** A check on every integer of [lo, lo + len). *)
Fixpoint forall_range (f : Z -> bool) (lo : Z) (len : nat) : bool :=
  match len with
  | O => true
  | S k => f lo && forall_range f (lo + 1) k
  end.

(** The price of [n] cents written with the symbol [$] and two decimals. *)
Definition price_string (n : Z) : string :=
  ("$" ++ PyStr.of_N (Z.to_N (n / 100)) ++ "." ++ Literal.two_digits (n mod 100))%string.

(** The cents Ingestion computes for the price of [n] cents are [n] or
    [n - 1]. *)
Definition cents_within_one (n : Z) : bool :=
  match Ingestion.price_cents 1 [Some (price_string n)] with
  | Ok [c] => ((n - 1 <=? c) && (c <=? n))%Z
  | _ => false
  end.

Definition same_float (x y : float) : bool :=
  match x, y with
  | S754_zero a, S754_zero b => Bool.eqb a b
  | S754_infinity a, S754_infinity b => Bool.eqb a b
  | S754_nan, S754_nan => true
  | S754_finite a m e, S754_finite b m' e' => Bool.eqb a b && Pos.eqb m m' && Z.eqb e e'
  | _, _ => false
  end.

(** A total of [n] cents as Ingestion holds it: [n / 100.0]. *)
Definition dollars (n : Z) : float :=
  Float64.div (Float64.of_Z n) (Float64.of_Z 100).

(** The format [.2f] of a total of [n] cents parses back to that total. *)
Definition value_round_trips (n : Z) : bool :=
  match to_numeric_scalar (Literal.format_2f (dollars n)) with
  | SFloat y => same_float y (dollars n)
  | SInt _ => false
  end.

(** A value of a numeric column is NaN. *)
Definition is_missing (x : scalar) : bool :=
  match x with
  | SFloat f => Float64.is_nan f
  | SInt _ => false
  end.

(** The key of a point of [daily_sales], and the order of the keys. *)
Definition point_key (p : Presentation.point) : Presentation.key :=
  (Presentation.p_date p, Presentation.p_region p).

Definition key_le (a b : Presentation.key) : Prop := Presentation.key_leb a b = true.

















(* ------------------------------------------------------------------ *)
(** ** Properties *)


(** A price that is only the symbol contributes zero and does not fail. *)
Example symbol_only_price_is_zero :
  Ingestion.process_sales_data (Scenario.directory [Scenario.one_sale "$" 5]) [] =
  Scenario.written [Scenario.sold "$0.00"].
Proof. vm_compute. reflexivity. Qed.

(** C1.  The price 0.29 is exactly 29 cents, which every rounding rule keeps,
    but Ingestion computes 28 cents for it: the float product 0.29 * 100 is
    just below 29 and [astype(int)] truncates it.  One unit at $0.29 is
    written as $0.28. *)
Theorem price_of_29_cents_becomes_28 :
  (exists l, Literal.parse "0.29" = Some l /\
             Qeq (Qmult (Literal.value l) (inject_Z 100)) (inject_Z 29)) /\
  Ingestion.price_cents 1 [Some "$0.29"] = Ok [28%Z] /\
  Ingestion.process_sales_data (Scenario.directory [Scenario.one_sale "$0.29" 1]) [] =
  Scenario.written [Scenario.sold "$0.28"].
Proof.
  split; [| split].
  - eexists. split; [reflexivity | vm_compute; reflexivity].
  - vm_compute. reflexivity.
  - vm_compute. reflexivity.
Qed.

(** When the symbol found in the first file is the default symbol, a later
    file is sliced at index 0. *)
Lemma default_symbol_is_not_sliced_later (d : string) cols pink :
  Ingestion.symbol_and_slice d (Some d) cols pink = Ok (d, 0%nat).
Proof.
  unfold Ingestion.symbol_and_slice. now rewrite String.eqb_refl.
Qed.

(** A detected symbol other than the default is sliced in every later
    file. *)
Lemma other_symbol_is_sliced_later (d c : string) cols pink :
  c <> d -> Ingestion.symbol_and_slice d (Some c) cols pink = Ok (c, 1%nat).
Proof.
  intros H. unfold Ingestion.symbol_and_slice.
  destruct (String.eqb_spec c d); [contradiction | reflexivity].
Qed.

(** C2.  With the default symbol [$] and two files that each hold the same
    sale of 5 units at $3.00, the first file is parsed with its first
    character removed (total 15.00) and the second with nothing removed, so
    its price does not parse and its total is 0.00. *)
Theorem second_file_is_not_stripped :
  Ingestion.process_sales_data
    (Scenario.directory [Scenario.one_sale "$3.00" 5; Scenario.one_sale "$3.00" 5]) [] =
  Scenario.written [Scenario.sold "$15.00"; Scenario.sold "$0.00"].
Proof. vm_compute. reflexivity. Qed.

(** C3, as stated, fails: on the one-character string [$] Ingestion takes
    the symbol and strips it, Presentation falls back to the default and
    strips nothing. *)
Lemma detections_differ_on_one_character :
  Presentation.detect (Some "$") <> Ingestion.detect "$" (Some "$").
Proof. vm_compute. discriminate. Qed.

(** C3, amended.  On every first string of at least two characters both
    detections take the first character as the symbol and strip one leading
    character; on a string of one character Presentation keeps the default
    symbol and strips nothing. *)
Theorem detections_agree_from_two_characters (default_symbol s : string) :
  (2 <= String.length s)%nat ->
  (Presentation.detect (Some s) = (PyStr.first_char s, 1%nat) /\
   Ingestion.detect default_symbol (Some s) = Presentation.detect (Some s)) /\
  (forall c : ascii,
     Presentation.detect (Some (String c EmptyString)) =
     (Presentation.DEFAULT_CURRENCY_SYMBOL, 0%nat)).
Proof.
  intros Hlen. split; [| reflexivity].
  destruct s as [| c [| c' s']]; simpl in Hlen; try lia.
  split; reflexivity.
Qed.

Lemma detections_agree_from_two_characters_witness :
  (2 <= String.length "$15.00")%nat /\
  Presentation.detect (Some "$15.00") = ("$", 1%nat) /\
  Ingestion.detect "$" (Some "$15.00") = Presentation.detect (Some "$15.00").
Proof.
  split; [simpl; lia |].
  apply (@detections_agree_from_two_characters "$" "$15.00"). simpl; lia.
Defined.

(** On a one-character string Ingestion takes the character as the symbol
    and strips it. *)
Lemma ingestion_detects_one_character (default_symbol : string) (c : ascii) :
  Ingestion.detect default_symbol (Some (String c EmptyString)) =
  (String c EmptyString, 1%nat).
Proof. reflexivity. Qed.

(** Without a first string both detections fall back: Ingestion to the
    configured default, Presentation to its constant. *)
Lemma detections_without_first_string (default_symbol : string) :
  Ingestion.detect default_symbol None = (default_symbol, 0%nat) /\
  Presentation.detect None = (Presentation.DEFAULT_CURRENCY_SYMBOL, 0%nat).
Proof. split; reflexivity. Qed.

(** C9.  With the artifact absent, or present with a header only,
    [load_and_clean_data] returns the frame without the column
    [Sales_Value], and the aggregation at line 56 raises KeyError; on a
    file of zero bytes [pd.read_csv] raises EmptyDataError inside
    [load_and_clean_data], which does not catch it. *)
Theorem absent_or_empty_artifact_raises
    (to_datetime_scalar : string -> option Z) (float_sum : list float -> float) :
  Presentation.load_and_clean_data to_datetime_scalar Presentation.Absent =
    Ok (Presentation.EmptyFrame, "$") /\
  Presentation.chart_data to_datetime_scalar float_sum Presentation.Absent =
    Raise (KeyError "Column not found: Sales_Value") /\
  Presentation.chart_data to_datetime_scalar float_sum (Presentation.Present (Ok [])) =
    Raise (KeyError "Column not found: Sales_Value") /\
  Presentation.load_and_clean_data to_datetime_scalar
    (Presentation.Present (Raise EmptyDataError)) = Raise EmptyDataError.
Proof. repeat split. Qed.

(* ------------------------------------------------------------------ *)
(** *** The loop over the files *)

Section Loop.
Variables product_filter default_symbol : string.

Let step := Ingestion.step product_filter default_symbol.
Let process_file := Ingestion.process_file product_filter default_symbol.

Lemma process_file_without_rows file currency_symbol :
  no_qualifying_rows product_filter file = true ->
  exists result,
    process_file currency_symbol file = (currency_symbol, result) /\
    (result = Ok None \/ exists e, result = Raise e).
Proof.
  unfold process_file, Ingestion.process_file, no_qualifying_rows, Ingestion.getitem.
  destruct file as [df | e]; intros H.
  - destruct (existsb (String.eqb "product") (Ingestion.columns df)); simpl in H.
    + destruct (filter _ _); [| discriminate].
      eexists; split; [reflexivity | now left].
    + eexists; split; [reflexivity | right; eauto].
  - eexists; split; [reflexivity | right; eauto].
Qed.

Lemma step_without_rows file st :
  no_qualifying_rows product_filter file = true -> step st file = st.
Proof.
  intros H. destruct st as [symbol data].
  destruct (process_file_without_rows file symbol H) as (result & Hp & Hr).
  unfold step, Ingestion.step. simpl fst. fold process_file. rewrite Hp.
  destruct Hr as [-> | [e ->]]; reflexivity.
Qed.

Lemma loop_without_rows files st :
  Forall (fun file => no_qualifying_rows product_filter file = true) files ->
  fold_left step files st = st.
Proof.
  induction 1 as [| file files Hfile _ IH]; simpl; [reflexivity |].
  now rewrite step_without_rows.
Qed.


(** Once a symbol is set, no file changes it: detection runs once. *)
Lemma process_file_keeps_symbol c file :
  fst (process_file (Some c) file) = Some c.
Proof.
  unfold process_file, Ingestion.process_file.
  destruct file as [df | e]; [| reflexivity].
  destruct (Ingestion.getitem _ _ _ _); [| reflexivity].
  destruct (filter _ _); reflexivity.
Qed.

End Loop.

Lemma process_sales_data_finish glob cfg :
  Ingestion.process_sales_data glob cfg =
  finish (Ingestion.get cfg "product_filter" "pink morsel")
         (Ingestion.get cfg "default_currency_symbol" "$")
         (Ingestion.run_loop (Ingestion.get cfg "product_filter" "pink morsel")
                             (Ingestion.get cfg "default_currency_symbol" "$")
                             (glob (Ingestion.get cfg "data_directory" "data"))).
Proof.
  unfold Ingestion.process_sales_data, finish.
  destruct (glob _) as [| file files]; [reflexivity |].
  destruct (Ingestion.run_loop _ _ _) as [symbol data].
  destruct data; reflexivity.
Qed.

(** A file whose body raises leaves the accumulated data as it was. *)
Lemma failing_file_keeps_accumulated_rows product_filter default_symbol st file symbol e :
  Ingestion.process_file product_filter default_symbol (fst st) file = (symbol, Raise e) ->
  Ingestion.step product_filter default_symbol st file = (symbol, snd st).
Proof. intros H. unfold Ingestion.step. now rewrite H. Qed.


(** C5.  When no file of the data directory has a row of the configured
    product (a file that cannot be read has none), also when the directory
    lists no file at all, [process_sales_data] returns normally and writes
    no artifact. *)
Theorem no_qualifying_rows_no_artifact glob cfg :
  Forall (fun file =>
            no_qualifying_rows (Ingestion.get cfg "product_filter" "pink morsel") file = true)
         (glob (Ingestion.get cfg "data_directory" "data")) ->
  Ingestion.process_sales_data glob cfg = Ok None.
Proof.
  intros H. rewrite process_sales_data_finish.
  unfold Ingestion.run_loop. now rewrite loop_without_rows.
Qed.

Lemma no_qualifying_rows_no_artifact_witness :
  Forall (fun file => no_qualifying_rows (Ingestion.get [] "product_filter" "pink morsel") file = true)
         (Scenario.directory [Scenario.frame_of [Scenario.transaction "choc" "$5.00" 2 "2020-01-01" "north"];
                              Raise EmptyDataError]
                             (Ingestion.get [] "data_directory" "data")) /\
  Ingestion.process_sales_data
    (Scenario.directory [Scenario.frame_of [Scenario.transaction "choc" "$5.00" 2 "2020-01-01" "north"];
                         Raise EmptyDataError]) [] = Ok None.
Proof.
  assert (H : Forall (fun file => no_qualifying_rows (Ingestion.get [] "product_filter" "pink morsel") file = true)
         (Scenario.directory [Scenario.frame_of [Scenario.transaction "choc" "$5.00" 2 "2020-01-01" "north"];
                              Raise EmptyDataError]
                             (Ingestion.get [] "data_directory" "data"))).
  { repeat constructor. }
  split; [exact H |].
  exact (no_qualifying_rows_no_artifact _ [] H).
Defined.



(* ------------------------------------------------------------------ *)
(** *** Lists and [mapM] *)

Lemma mapM_length {A B} (f : A -> res B) l l' :
  mapM f l = Ok l' -> List.length l' = List.length l.
Proof.
  revert l'. induction l as [| a l IH]; simpl; intros l' H.
  - now inversion H.
  - destruct (f a); [| discriminate]. simpl in H.
    destruct (mapM f l); [| discriminate]. simpl in H.
    inversion H; subst. simpl. f_equal. now apply IH.
Qed.

Lemma mapM_raises {A B} (f : A -> res B) l x e :
  In x l -> f x = Raise e -> exists e', mapM f l = Raise e'.
Proof.
  induction l as [| a l IH]; simpl; intros Hin Hx; [contradiction |].
  destruct (f a) eqn:Ha; simpl; [| eauto].
  destruct Hin as [-> | Hin]; [congruence |].
  destruct (IH Hin Hx) as [e' ->]. simpl. eauto.
Qed.


Lemma mapM_nth_error {A B} (f : A -> res B) l l' i x :
  mapM f l = Ok l' -> nth_error l i = Some x ->
  exists y, f x = Ok y /\ nth_error l' i = Some y.
Proof.
  revert l' i. induction l as [| a l IH]; simpl; intros l' i H Hi.
  - destruct i; discriminate.
  - destruct (f a) eqn:Ha; [| discriminate]. simpl in H.
    destruct (mapM f l) eqn:Hl; [| discriminate]. simpl in H.
    inversion H; subst. destruct i; simpl in *.
    + inversion Hi; subst. eauto.
    + eapply IH; eauto.
Qed.

Lemma nth_error_combine {A B} (l : list A) (l' : list B) i a b :
  nth_error l i = Some a -> nth_error l' i = Some b ->
  nth_error (combine l l') i = Some (a, b).
Proof.
  revert l' i. induction l as [| x l IH]; intros [| y l'] [| i]; simpl; try discriminate.
  - now intros [= ->] [= ->].
  - apply IH.
Qed.


(* ------------------------------------------------------------------ *)
(** *** Prices in cents *)

Lemma all_ints_length xs zs : all_ints xs = Some zs -> List.length zs = List.length xs.
Proof.
  revert zs. induction xs as [| [z | f] xs IH]; simpl; intros zs H.
  - now inversion H.
  - destruct (all_ints xs); [| discriminate]. simpl in H.
    inversion H; subst. simpl. f_equal. now apply IH.
  - discriminate.
Qed.


Lemma price_cents_length k prices cents :
  Ingestion.price_cents k prices = Ok cents -> List.length cents = List.length prices.
Proof.
  unfold Ingestion.price_cents, to_numeric, to_series.
  destruct (all_ints _) as [zs |] eqn:Hints; simpl.
  - intros [= <-]. rewrite length_map, (all_ints_length _ Hints), !length_map. reflexivity.
  - destruct (forallb _ _); [| discriminate].
    intros [= <-]. now rewrite !length_map.
Qed.


(* ------------------------------------------------------------------ *)
(** *** An int64 converts to a finite float *)
















(* ------------------------------------------------------------------ *)
(** *** The summary of one file *)

Lemma getitem_present {A} cols rs name (cell : Ingestion.row -> A) :
  In name cols -> Ingestion.getitem cols rs name cell = Ok (map cell rs).
Proof.
  intros H. unfold Ingestion.getitem.
  replace (existsb (String.eqb name) cols) with true; [reflexivity |].
  symmetry. apply existsb_exists. exists name. split; [assumption | apply String.eqb_refl].
Qed.

Lemma getitem_ok {A} cols rs name (cell : Ingestion.row -> A) col :
  Ingestion.getitem cols rs name cell = Ok col -> col = map cell rs.
Proof.
  unfold Ingestion.getitem. destruct (existsb _ _); [| discriminate]. now intros [= <-].
Qed.









(* ------------------------------------------------------------------ *)
(** *** The format of the sales field *)

Lemma string_of_uint_digits u : all_digits (NilEmpty.string_of_uint u) = true.
Proof. induction u; simpl; auto. Qed.

Lemma of_N_digits n :
  PyStr.of_N n <> EmptyString /\ all_digits (PyStr.of_N n) = true.
Proof.
  unfold PyStr.of_N, NilZero.string_of_uint.
  destruct (N.to_uint n) as [| u | u | u | u | u | u | u | u | u | u] eqn:Hu;
    (split; [simpl; discriminate |]);
    try reflexivity; apply (string_of_uint_digits (_ u)).
Qed.

Lemma two_digits_shape n :
  (0 <= n < 100)%Z ->
  exists d1 d2,
    Literal.two_digits n = String d1 (String d2 EmptyString) /\
    Literal.is_digit d1 = true /\ Literal.is_digit d2 = true.
Proof.
  intros Hn.
  assert (Hall : forallb two_digits_ok (seq 0 100) = true) by (vm_compute; reflexivity).
  rewrite forallb_forall in Hall.
  specialize (Hall (Z.to_nat n)). unfold two_digits_ok in Hall.
  rewrite Z2Nat.id in Hall by lia.
  destruct (Literal.two_digits n) as [| d1 [| d2 [| ? ?]]];
    try (discriminate Hall; apply in_seq; lia).
  exists d1, d2. split; [reflexivity |].
  apply andb_true_iff, Hall, in_seq. lia.
Qed.

(** The format [.2f] prints a finite float as a fixed two-decimal numeral. *)
Lemma format_2f_fixed x :
  Float64.is_finite x = true -> fixed_two_decimal (Literal.format_2f x).
Proof.
  intros Hx.
  assert (H : Literal.format_2f x =
              ((if Float64.sign x then "-" else EmptyString)
                 ++ PyStr.of_N (Z.to_N (Float64.hundredths x / 100)%Z) ++ "."
                 ++ Literal.two_digits (Float64.hundredths x mod 100)%Z)%string)
    by (destruct x; try discriminate; reflexivity).
  rewrite H.
  destruct (two_digits_shape (n := (Float64.hundredths x mod 100)%Z)) as (d1 & d2 & -> & H1 & H2).
  { apply Z.mod_pos_bound. lia. }
  destruct (of_N_digits (Z.to_N (Float64.hundredths x / 100)%Z)) as [Hne Hd].
  exists (if Float64.sign x then "-" else EmptyString),
         (PyStr.of_N (Z.to_N (Float64.hundredths x / 100)%Z)), d1, d2.
  repeat split; auto.
  destruct (Float64.sign x); auto.
Qed.



(* ------------------------------------------------------------------ *)
(** *** Aggregation by date and region *)




Lemma in_group_iff k r :
  Presentation.in_group k r = true <->
  Presentation.c_date r = Some (fst k) /\ Presentation.c_region r = Some (snd k).
Proof.
  unfold Presentation.in_group, Presentation.key_of. destruct k as [d g]. simpl.
  destruct (Presentation.c_date r) as [d' |], (Presentation.c_region r) as [g' |];
    try (split; [discriminate | intros [? ?]; discriminate]).
  simpl. rewrite andb_true_iff, Z.eqb_eq, String.eqb_eq.
  split; intros [H1 H2]; split; congruence.
Qed.








(* ------------------------------------------------------------------ *)
(** *** More on the loop: the symbol and the origin of the records *)

Lemma loop_symbol_fixed product_filter default_symbol c files data :
  fst (fold_left (Ingestion.step product_filter default_symbol) files (Some c, data)) = Some c.
Proof.
  revert data. induction files as [| file files IH]; intros data; [reflexivity |].
  simpl. unfold Ingestion.step at 2. simpl fst.
  pose proof (process_file_keeps_symbol product_filter default_symbol c file) as H.
  destruct (Ingestion.process_file product_filter default_symbol (Some c) file)
    as [symbol result].
  simpl in H. subst symbol.
  destruct result as [[summary_df |] | e]; apply IH.
Qed.

(** X1.  From a state in which the currency symbol is set, the loop ends
    with the same symbol, whatever the remaining files hold and whether
    their bodies raise; in particular the symbol of a file added to the
    accumulated data is the symbol of every later one. *)
Theorem loop_keeps_detected_symbol product_filter default_symbol c files data file :
  fst (fold_left (Ingestion.step product_filter default_symbol) files (Some c, data)) = Some c /\
  fst (Ingestion.step product_filter default_symbol
         (fold_left (Ingestion.step product_filter default_symbol) files (Some c, data)) file)
  = Some c.
Proof.
  split; [apply loop_symbol_fixed |].
  rewrite <- (loop_symbol_fixed product_filter default_symbol c (files ++ [file]) data) at 2.
  now rewrite fold_left_app.
Qed.

Lemma combine_map_same {A B C} (f : A -> B) (g : A -> C) l :
  combine (map f l) (map g l) = map (fun x => (f x, g x)) l.
Proof. induction l; simpl; congruence. Qed.

(** A summary has one row for each row it was computed from, each with the
    date and region of one of them. *)
Lemma summarize_shape cols dt pink k out :
  Ingestion.summarize cols dt pink k = Ok out ->
  List.length out = List.length pink /\
  forall o, In o out ->
    exists r, In r pink /\
              Ingestion.s_date o = Ingestion.date r /\
              Ingestion.s_region o = Ingestion.region r.
Proof.
  unfold Ingestion.summarize. intros H.
  destruct (Ingestion.getitem cols pink "price" Ingestion.price) as [prices | e] eqn:Hp;
    simpl in H; [| discriminate].
  destruct (Ingestion.price_cents k prices) as [cents | e] eqn:Hc; simpl in H; [| discriminate].
  destruct (Ingestion.getitem cols pink "quantity" _) as [qs | e] eqn:Hq;
    simpl in H; [| discriminate].
  destruct (mapM truediv_100 _) as [sales_numeric | e] eqn:Hm; simpl in H; [| discriminate].
  destruct (Ingestion.getitem cols pink "date" _) as [dates | e] eqn:Hd;
    simpl in H; [| discriminate].
  destruct (Ingestion.getitem cols pink "region" _) as [regions | e] eqn:Hr;
    simpl in H; [| discriminate].
  apply getitem_ok in Hp, Hq, Hd, Hr. subst prices qs dates regions.
  apply price_cents_length in Hc. apply mapM_length in Hm.
  rewrite length_map, length_combine, length_map in Hm. rewrite length_map in Hc.
  inversion H; subst out; clear H. split.
  - rewrite length_map, !length_combine, !length_map. lia.
  - intros o Ho. apply in_map_iff in Ho. destruct Ho as ([y [d g]] & <- & Hin).
    apply in_combine_r in Hin. rewrite combine_map_same in Hin.
    apply in_map_iff in Hin. destruct Hin as (r & [= <- <-] & Hr).
    exists r. auto.
Qed.

(** The summary that the body of the loop returns for a file. *)
Lemma process_file_summary product_filter default_symbol currency_symbol file symbol out :
  Ingestion.process_file product_filter default_symbol currency_symbol file
  = (symbol, Ok (Some out)) ->
  out <> [] /\
  List.length out = List.length (matching_rows product_filter file) /\
  forall o, In o out ->
    exists r, In r (matching_rows product_filter file) /\
              Ingestion.s_date o = Ingestion.date r /\
              Ingestion.s_region o = Ingestion.region r.
Proof.
  unfold Ingestion.process_file, matching_rows.
  destruct file as [df | e]; [| discriminate].
  destruct (Ingestion.getitem _ _ "product" _); [| discriminate].
  destruct (filter _ _) as [| r0 pink] eqn:Hf; [discriminate |].
  destruct (Ingestion.symbol_and_slice _ _ _ _) as [[s k] | e]; [| discriminate].
  destruct (Ingestion.summarize _ _ _ _) as [summary_df | e] eqn:Hs; [| discriminate].
  simpl. intros [= _ <-].
  destruct (summarize_shape _ _ _ _ Hs) as [Hlen Hrows].
  split; [| split; assumption].
  intros ->. discriminate.
Qed.

Section LoopInvariant.
Variables product_filter default_symbol : string.
Variable Q : list Ingestion.summary_row -> Prop.

Lemma loop_invariant files st :
  Forall Q (snd st) ->
  (forall currency_symbol file symbol out,
     In file files ->
     Ingestion.process_file product_filter default_symbol currency_symbol file
     = (symbol, Ok (Some out)) -> Q out) ->
  Forall Q (snd (fold_left (Ingestion.step product_filter default_symbol) files st)).
Proof.
  revert st. induction files as [| file files IH]; intros st Hst HQ; [assumption |].
  simpl. apply IH; [| intros; eapply HQ; [right |]; eauto].
  unfold Ingestion.step.
  destruct (Ingestion.process_file product_filter default_symbol (fst st) file)
    as [symbol [[out |] | e]] eqn:Hp; simpl; try assumption.
  apply Forall_app. split; [assumption |].
  constructor; [| constructor]. eapply HQ; [left; reflexivity | exact Hp].
Qed.
End LoopInvariant.

(** X2.  Every record of a written artifact carries the date and the region
    of a row of the configured product in a file of the data directory that
    [pd.read_csv] could read: no row of another product reaches the
    artifact. *)
Theorem records_come_from_rows_of_the_product glob cfg art record :
  Ingestion.process_sales_data glob cfg = Ok (Some art) ->
  In record (Ingestion.records art) ->
  exists df r,
    In (Ok df) (glob (Ingestion.get cfg "data_directory" "data")) /\
    In r (Ingestion.rows df) /\
    Ingestion.product r = Some (Ingestion.get cfg "product_filter" "pink morsel") /\
    Ingestion.a_date record = Ingestion.date r /\
    Ingestion.a_region record = Ingestion.region r.
Proof.
  rewrite process_sales_data_finish. unfold finish.
  set (pf := Ingestion.get cfg "product_filter" "pink morsel").
  set (ds := Ingestion.get cfg "default_currency_symbol" "$").
  set (files := glob (Ingestion.get cfg "data_directory" "data")).
  pose proof (@loop_invariant pf ds
                (fun out => forall o, In o out ->
                   exists df r, In (Ok df) files /\ In r (Ingestion.rows df) /\
                                Ingestion.product r = Some pf /\
                                Ingestion.s_date o = Ingestion.date r /\
                                Ingestion.s_region o = Ingestion.region r)
                files (None, []) (Forall_nil _)) as Hinv.
  unfold Ingestion.run_loop.
  destruct (snd (fold_left _ files (None, []))) as [| summary_df data] eqn:Hdata;
    [discriminate |].
  intros [= <-] Hin. simpl Ingestion.records in Hin.
  apply in_map_iff in Hin. destruct Hin as (o & <- & Ho).
  change (In o (List.concat (summary_df :: data))) in Ho.
  apply in_concat in Ho. destruct Ho as (out & Hout & Ho).
  assert (HQ : forall currency_symbol file symbol out,
             In file files ->
             Ingestion.process_file pf ds currency_symbol file = (symbol, Ok (Some out)) ->
             forall o, In o out ->
               exists df r, In (Ok df) files /\ In r (Ingestion.rows df) /\
                            Ingestion.product r = Some pf /\
                            Ingestion.s_date o = Ingestion.date r /\
                            Ingestion.s_region o = Ingestion.region r).
  { intros currency_symbol file symbol out' Hfile Hp o' Ho'.
    destruct (process_file_summary _ _ _ _ Hp) as (_ & _ & Hrows).
    destruct (Hrows o' Ho') as (r & Hr & Hd & Hg).
    destruct file as [df | e]; [| contradiction].
    simpl in Hr. apply filter_In in Hr. destruct Hr as [Hr Hm].
    exists df, r. repeat split; auto.
    unfold Ingestion.matches in Hm.
    destruct (Ingestion.product r) as [s |]; [| discriminate].
    apply String.eqb_eq in Hm. now subst. }
  specialize (Hinv HQ). rewrite Forall_forall in Hinv.
  exact (Hinv out Hout o Ho).
Qed.

Lemma records_come_from_rows_of_the_product_witness :
  exists df r,
    In (Ok df) (Scenario.directory [Scenario.morsels] (Ingestion.get [] "data_directory" "data")) /\
    In r (Ingestion.rows df) /\
    Ingestion.product r = Some (Ingestion.get [] "product_filter" "pink morsel") /\
    Ingestion.a_date (Scenario.sold "$6.00") = Ingestion.date r /\
    Ingestion.a_region (Scenario.sold "$6.00") = Ingestion.region r.
Proof.
  apply (@records_come_from_rows_of_the_product (Scenario.directory [Scenario.morsels]) []
           {| Ingestion.output_file := "pink_morsel_sales_summary.csv";
              Ingestion.records := [Scenario.sold "$15.00"; Scenario.sold "$6.00"] |}).
  - vm_compute. reflexivity.
  - simpl. right. left. reflexivity.
Defined.

Lemma loop_count product_filter default_symbol files st :
  (List.length (List.concat
     (snd (fold_left (Ingestion.step product_filter default_symbol) files st)))
   <= List.length (List.concat (snd st))
      + List.length (flat_map (matching_rows product_filter) files))%nat.
Proof.
  revert st. induction files as [| file files IH]; intros st; simpl; [lia |].
  etransitivity; [apply IH |].
  rewrite length_app.
  unfold Ingestion.step.
  destruct (Ingestion.process_file product_filter default_symbol (fst st) file)
    as [symbol [[out |] | e]] eqn:Hp; simpl; try lia.
  destruct (process_file_summary _ _ _ _ Hp) as (_ & Hlen & _).
  rewrite concat_app, length_app. simpl. rewrite app_nil_r. lia.
Qed.

(** X3.  A written artifact has at least one record and at most as many
    records as the files of the data directory have rows of the configured
    product. *)
Theorem artifact_is_not_empty_and_bounded glob cfg art :
  Ingestion.process_sales_data glob cfg = Ok (Some art) ->
  (1 <= List.length (Ingestion.records art)
     <= List.length (flat_map (matching_rows (Ingestion.get cfg "product_filter" "pink morsel"))
                              (glob (Ingestion.get cfg "data_directory" "data"))))%nat.
Proof.
  rewrite process_sales_data_finish. unfold finish.
  set (pf := Ingestion.get cfg "product_filter" "pink morsel").
  set (ds := Ingestion.get cfg "default_currency_symbol" "$").
  set (files := glob (Ingestion.get cfg "data_directory" "data")).
  pose proof (loop_count pf ds files (None, [])) as Hcount.
  pose proof (@loop_invariant pf ds (fun out => out <> []) files (None, []) (Forall_nil _)) as Hinv.
  unfold Ingestion.run_loop.
  destruct (snd (fold_left _ files (None, []))) as [| summary_df data] eqn:Hdata;
    [discriminate |].
  intros [= <-]. simpl Ingestion.records. rewrite length_map. split.
  - assert (Hne : summary_df <> []).
    { assert (H : Forall (fun out => out <> []) (summary_df :: data)).
      { apply Hinv. intros currency_symbol file symbol out _ Hp.
        now destruct (process_file_summary _ _ _ _ Hp). }
      now inversion H. }
    destruct summary_df; [congruence |]. simpl. lia.
  - simpl in Hcount. exact Hcount.
Qed.

Lemma artifact_is_not_empty_and_bounded_witness :
  (1 <= List.length [Scenario.sold "$15.00"; Scenario.sold "$6.00"]
     <= List.length (flat_map (matching_rows (Ingestion.get [] "product_filter" "pink morsel"))
                              (Scenario.directory [Scenario.morsels]
                                 (Ingestion.get [] "data_directory" "data"))))%nat.
Proof.
  apply (@artifact_is_not_empty_and_bounded (Scenario.directory [Scenario.morsels]) []
           {| Ingestion.output_file := "pink_morsel_sales_summary.csv";
              Ingestion.records := [Scenario.sold "$15.00"; Scenario.sold "$6.00"] |}).
  vm_compute. reflexivity.
Defined.

(* ------------------------------------------------------------------ *)
(** *** Prices and totals up to $99.99, checked value by value *)

Lemma forall_range_spec f lo len n :
  forall_range f lo len = true -> (lo <= n < lo + Z.of_nat len)%Z -> f n = true.
Proof.
  revert lo. induction len as [| k IH]; intros lo H Hn; [lia |].
  simpl in H. apply andb_true_iff in H. destruct H as [H0 H].
  destruct (Z.eq_dec n lo) as [-> | Hne]; [assumption |].
  apply (IH (lo + 1)%Z); [assumption | lia].
Qed.

Lemma same_float_eq x y : same_float x y = true -> x = y.
Proof.
  destruct x as [a | a | | a m e], y as [b | b | | b m' e']; simpl; try discriminate;
    try reflexivity.
  - intros H. apply Bool.eqb_prop in H. now subst.
  - intros H. apply Bool.eqb_prop in H. now subst.
  - rewrite !andb_true_iff. intros [[H1 H2] H3].
    apply Bool.eqb_prop in H1. apply Pos.eqb_eq in H2. apply Z.eqb_eq in H3. now subst.
Qed.

(** X4.  For every price from $0.00 to $99.99 written with two decimals, the
    cents that Ingestion computes (strip the symbol, parse, multiply by 100,
    [astype(int)]) are the exact cents or one cent less, never more and
    never two less. *)
Theorem price_cents_loses_at_most_one_cent (n : Z) :
  (0 <= n < 10000)%Z ->
  exists c,
    Ingestion.price_cents 1 [Some (price_string n)] = Ok [c] /\ (n - 1 <= c <= n)%Z.
Proof.
  intros Hn.
  assert (H : cents_within_one n = true).
  { apply (@forall_range_spec cents_within_one 0%Z (Z.to_nat 10000) n);
      [vm_compute; reflexivity | lia]. }
  unfold cents_within_one in H.
  destruct (Ingestion.price_cents 1 [Some (price_string n)]) as [[| c [| ? ?]] | e];
    try discriminate.
  exists c. split; [reflexivity |].
  apply andb_true_iff in H. destruct H as [H1 H2].
  apply Z.leb_le in H1, H2. lia.
Qed.

Lemma price_cents_loses_at_most_one_cent_witness :
  exists c,
    Ingestion.price_cents 1 [Some (price_string 29)] = Ok [c] /\ (29 - 1 <= c <= 29)%Z.
Proof. apply (@price_cents_loses_at_most_one_cent 29). lia. Defined.

Lemma format_2f_not_empty x : Literal.format_2f x <> EmptyString.
Proof.
  destruct (Float64.is_finite x) eqn:Hx.
  - destruct (format_2f_fixed x Hx) as (sign & ip & d1 & d2 & -> & Hs & Hip & _).
    destruct Hs as [-> | ->]; [| discriminate].
    destruct ip; [congruence | discriminate].
  - destruct x as [s | [|] | | s m e]; discriminate.
Qed.

(** X5.  What Ingestion writes in the sales field, a one-character symbol
    followed by the [.2f] format of a total, reads back in Presentation:
    detection returns that symbol with slice index 1, and for a total of 0
    to 9999 cents the sliced string parses to exactly the total that was
    formatted. *)
Theorem sales_field_reads_back (symbol : ascii) (n : Z) :
  (0 <= n < 10000)%Z ->
  Presentation.detect
    (Some (Ingestion.a_sales
             (Ingestion.format_sales (String symbol EmptyString)
                {| Ingestion.sales := dollars n;
                   Ingestion.s_date := None; Ingestion.s_region := None |})))
  = (String symbol EmptyString, 1%nat) /\
  to_numeric_scalar
    (PyStr.slice 1
       (Ingestion.a_sales
          (Ingestion.format_sales (String symbol EmptyString)
             {| Ingestion.sales := dollars n;
                Ingestion.s_date := None; Ingestion.s_region := None |})))
  = SFloat (dollars n).
Proof.
  intros Hn. simpl. split.
  - pose proof (format_2f_not_empty (dollars n)) as Hne.
    destruct (Literal.format_2f (dollars n)); [congruence | reflexivity].
  - assert (H : value_round_trips n = true).
    { apply (@forall_range_spec value_round_trips 0%Z (Z.to_nat 10000) n);
        [vm_compute; reflexivity | lia]. }
    unfold value_round_trips in H.
    destruct (to_numeric_scalar (Literal.format_2f (dollars n))) as [z | y];
      [discriminate |].
    now rewrite (same_float_eq _ _ H).
Qed.

Lemma sales_field_reads_back_witness :
  Presentation.detect (Some "$15.00") = ("$", 1%nat) /\
  to_numeric_scalar "15.00" = SFloat (dollars 1500).
Proof. apply (@sales_field_reads_back "$"%char 1500). lia. Defined.

(* ------------------------------------------------------------------ *)
(** *** The configuration *)

Lemma get_absent cfg key default :
  (forall v, ~ In (key, v) cfg) -> Ingestion.get cfg key default = default.
Proof.
  induction cfg as [| [k v] cfg IH]; simpl; intros H; [reflexivity |].
  destruct (String.eqb_spec k key) as [-> | Hne].
  - exfalso. apply (H v). now left.
  - apply IH. intros v' Hin. apply (H v'). now right.
Qed.

(** X6.  A key that the configuration does not hold acts as its default:
    adding any of the three keys with its default value to a configuration
    without that key does not change what [process_sales_data] does. *)
Theorem absent_key_acts_as_default glob cfg key default :
  In (key, default) [("data_directory", "data"); ("product_filter", "pink morsel");
                     ("default_currency_symbol", "$")] ->
  (forall v, ~ In (key, v) cfg) ->
  Ingestion.process_sales_data glob ((key, default) :: cfg) =
  Ingestion.process_sales_data glob cfg.
Proof.
  intros Hkey Habs. unfold Ingestion.process_sales_data.
  pose proof (get_absent cfg key default Habs) as Hget.
  simpl in Hkey.
  destruct Hkey as [[= <- <-] | [[= <- <-] | [[= <- <-] | []]]]; simpl; rewrite Hget; reflexivity.
Qed.

Lemma absent_key_acts_as_default_witness :
  Ingestion.process_sales_data (Scenario.directory [Scenario.morsels])
    [("product_filter", "pink morsel"); ("default_currency_symbol", "E")] =
  Ingestion.process_sales_data (Scenario.directory [Scenario.morsels])
    [("default_currency_symbol", "E")].
Proof.
  apply (@absent_key_acts_as_default (Scenario.directory [Scenario.morsels])
           [("default_currency_symbol", "E")] "product_filter" "pink morsel").
  - simpl. right. left. reflexivity.
  - intros v [H | []]. discriminate.
Defined.

Lemma length_append (a b : string) :
  String.length (a ++ b)%string = (String.length a + String.length b)%nat.
Proof. induction a; simpl; congruence. Qed.

Lemma append_cancel_r (a b s : string) : (a ++ s = b ++ s)%string -> a = b.
Proof.
  revert b. induction a as [| c a IH]; intros [| c' b] H; simpl in H.
  - reflexivity.
  - exfalso. apply (f_equal String.length) in H. simpl in H.
    rewrite length_append in H. lia.
  - exfalso. apply (f_equal String.length) in H. simpl in H.
    rewrite length_append in H. lia.
  - inversion H; subst. f_equal. now apply IH.
Qed.

(** X7.  The artifact Ingestion writes has the name Presentation reads
    ([DATA_FILE]) exactly when the product filter, with spaces replaced by
    underscores and letters lowered, is [pink_morsel]; with any other
    filter Presentation does not read the file that was written. *)
Theorem artifact_name_is_data_file glob cfg art :
  Ingestion.process_sales_data glob cfg = Ok (Some art) ->
  (Ingestion.output_file art = Presentation.DATA_FILE <->
   PyStr.replace_space_lower (Ingestion.get cfg "product_filter" "pink morsel") = "pink_morsel").
Proof.
  rewrite process_sales_data_finish. unfold finish.
  destruct (snd _); [discriminate |].
  intros [= <-]. simpl Ingestion.output_file. unfold Presentation.DATA_FILE.
  split.
  - intros H. apply (append_cancel_r _ "pink_morsel" "_sales_summary.csv"). exact H.
  - intros ->. reflexivity.
Qed.

Lemma artifact_name_is_data_file_witness :
  "pink_morsel_sales_summary.csv" = Presentation.DATA_FILE <->
  PyStr.replace_space_lower (Ingestion.get [("product_filter", "Pink Morsel")]
                               "product_filter" "pink morsel") = "pink_morsel".
Proof.
  apply (@artifact_name_is_data_file
           (Scenario.directory [Scenario.frame_of
              [Scenario.transaction "Pink Morsel" "$3.00" 5 "2020-01-01" "north"]])
           [("product_filter", "Pink Morsel")]
           {| Ingestion.output_file := "pink_morsel_sales_summary.csv";
              Ingestion.records := [Scenario.sold "$15.00"] |}).
  vm_compute. reflexivity.
Defined.

(* ------------------------------------------------------------------ *)
(** *** Loading the artifact *)

Lemma cells_length col :
  List.length (Presentation.cells (fillna_0 (to_numeric col))) = List.length col.
Proof.
  unfold to_numeric, to_series.
  destruct (all_ints _) as [zs |] eqn:Hints; simpl.
  - now rewrite length_map, (all_ints_length _ Hints), length_map.
  - now rewrite !length_map.
Qed.

Lemma cells_not_missing col x :
  In x (Presentation.cells (fillna_0 (to_numeric col))) -> is_missing x = false.
Proof.
  unfold to_numeric, to_series.
  destruct (all_ints _) as [zs |]; simpl; intros H; apply in_map_iff in H.
  - destruct H as (z & <- & _). reflexivity.
  - destruct H as (f & <- & H). apply in_map_iff in H. destruct H as (g & <- & _).
    simpl. destruct (Float64.is_nan g) eqn:Hg; [reflexivity | assumption].
Qed.

Lemma map_third_combine {A B C} (a : list A) (b : list B) (c : list C) :
  List.length a = List.length c -> List.length b = List.length c ->
  map (fun x => snd (snd x)) (combine a (combine b c)) = c.
Proof.
  revert a b. induction c as [| z c IH]; intros [| x a] [| y b]; simpl; try discriminate;
    try reflexivity.
  intros [= Ha] [= Hb]. f_equal. now apply IH.
Qed.

Lemma to_datetime_only_raises_ValueError to_datetime_scalar col e :
  mapM (Presentation.to_datetime to_datetime_scalar) col = Raise e -> e = ValueError.
Proof.
  induction col as [| [s |] col IH]; simpl; [discriminate | |].
  - destruct (to_datetime_scalar s); simpl; [| now intros [= <-]].
    destruct (mapM _ col); simpl; [discriminate | intros [= <-]; now apply IH].
  - destruct (mapM _ col); simpl; [discriminate | intros [= <-]; now apply IH].
Qed.

(** The frame that [load_and_clean_data] returns for an artifact with
    records. *)
Lemma load_and_clean_data_cleaned to_datetime_scalar df frame symbol :
  Presentation.load_and_clean_data to_datetime_scalar (Presentation.Present (Ok df))
  = Ok (frame, symbol) ->
  df <> [] ->
  exists dates,
    mapM (Presentation.to_datetime to_datetime_scalar) (map Presentation.date df) = Ok dates /\
    symbol = fst (Presentation.detect (Presentation.first_sales_value (map Presentation.sales df))) /\
    frame =
    Presentation.Cleaned
      (map (fun x => {| Presentation.Sales_Value := fst x;
                        Presentation.c_date := fst (snd x);
                        Presentation.c_region := snd (snd x) |})
           (combine
              (Presentation.cells
                 (fillna_0 (to_numeric
                    (map (fun r =>
                            PyStr.slice
                              (snd (Presentation.detect
                                      (Presentation.first_sales_value
                                         (map Presentation.sales df))))
                              (astype_str (Presentation.sales r))) df))))
              (combine dates (map Presentation.region df)))).
Proof.
  unfold Presentation.load_and_clean_data. simpl.
  destruct df as [| r0 df]; [congruence |]. intros H _.
  destruct (Presentation.detect _) as [currency_symbol slice_start_index].
  destruct (mapM _ _) as [dates | e]; simpl in H; [| discriminate].
  inversion H; subst. exists dates. auto.
Qed.

(** X9.  When [load_and_clean_data] returns a cleaned frame, it has one row
    for each record of the artifact, in order and with the region of the
    record, and no sales value in it is NaN: a value that does not parse has
    been replaced by zero, and no record is dropped. *)
Theorem loading_keeps_every_record to_datetime_scalar df rows symbol :
  Presentation.load_and_clean_data to_datetime_scalar (Presentation.Present (Ok df))
  = Ok (Presentation.Cleaned rows, symbol) ->
  map Presentation.c_region rows = map Presentation.region df /\
  forall row, In row rows -> is_missing (Presentation.Sales_Value row) = false.
Proof.
  intros H.
  assert (Hne : df <> []).
  { intros ->. simpl in H. discriminate. }
  destruct (load_and_clean_data_cleaned _ H Hne) as (dates & Hd & _ & Hrows).
  inversion Hrows; subst rows; clear Hrows.
  apply mapM_length in Hd. rewrite length_map in Hd. split.
  - rewrite map_map. simpl. apply map_third_combine.
    + now rewrite cells_length, !length_map.
    + now rewrite length_map.
  - intros row Hrow. apply in_map_iff in Hrow. destruct Hrow as ([v [d g]] & <- & Hin).
    apply in_combine_l in Hin. simpl. eapply cells_not_missing; eauto.
Qed.

Lemma loading_keeps_every_record_witness :
  map Presentation.c_region
      [{| Presentation.Sales_Value := SFloat (dollars 1500);
          Presentation.c_date := Some 20200101%Z; Presentation.c_region := Some "north" |};
       {| Presentation.Sales_Value := SFloat Float64.zero;
          Presentation.c_date := Some 20200101%Z; Presentation.c_region := Some "north" |}]
  = map Presentation.region [Scenario.stored "$15.00"; Scenario.stored "$x"].
Proof.
  apply (@loading_keeps_every_record Presentation.iso_date
           [Scenario.stored "$15.00"; Scenario.stored "$x"] _ "$").
  vm_compute. reflexivity.
Defined.

(** X10.  A date that [pd.to_datetime] cannot parse, in any record of the
    artifact, makes [load_and_clean_data] raise ValueError: the function has
    no handler for it. *)
Theorem unparseable_date_raises to_datetime_scalar df r s :
  In r df ->
  Presentation.date r = Some s ->
  to_datetime_scalar s = None ->
  Presentation.load_and_clean_data to_datetime_scalar (Presentation.Present (Ok df))
  = Raise ValueError.
Proof.
  intros Hin Hdate Hfail.
  unfold Presentation.load_and_clean_data. simpl.
  destruct df as [| r0 df]; [contradiction |].
  destruct (Presentation.detect _) as [currency_symbol slice_start_index].
  destruct (mapM_raises (Presentation.to_datetime to_datetime_scalar)
              (map Presentation.date (r0 :: df)) (Some s) (e := ValueError)) as [e He].
  - rewrite <- Hdate. now apply in_map.
  - simpl. now rewrite Hfail.
  - rewrite He. simpl. f_equal. eapply to_datetime_only_raises_ValueError; eauto.
Qed.

Lemma unparseable_date_raises_witness :
  Presentation.load_and_clean_data Presentation.iso_date
    (Presentation.Present
       (Ok [Scenario.stored "$15.00";
            {| Presentation.sales := Some "$6.00"; Presentation.date := Some "yesterday";
               Presentation.region := Some "north" |}]))
  = Raise ValueError.
Proof.
  apply (@unparseable_date_raises Presentation.iso_date _
           {| Presentation.sales := Some "$6.00"; Presentation.date := Some "yesterday";
              Presentation.region := Some "north" |} "yesterday").
  - simpl. right. left. reflexivity.
  - reflexivity.
  - reflexivity.
Defined.

(* ------------------------------------------------------------------ *)
(** *** More on the aggregation *)

Lemma dropna_app {A} (l l' : list (option A)) : dropna (l ++ l') = dropna l ++ dropna l'.
Proof.
  induction l as [| [a |] l IH]; simpl; [reflexivity | | assumption].
  now rewrite IH.
Qed.

(** X12.  A record whose date or region is missing belongs to no group:
    with or without it, wherever it stands, [daily_sales] is the same. *)
Theorem record_without_key_is_not_aggregated float_sum pre r post :
  Presentation.c_date r = None \/ Presentation.c_region r = None ->
  Presentation.daily_sales float_sum (Presentation.Cleaned (pre ++ r :: post)) =
  Presentation.daily_sales float_sum (Presentation.Cleaned (pre ++ post)).
Proof.
  intros Hr.
  assert (Hkey : Presentation.key_of r = None).
  { unfold Presentation.key_of. destruct Hr as [-> | ->]; [reflexivity |].
    destruct (Presentation.c_date r); reflexivity. }
  unfold Presentation.daily_sales, Presentation.group_keys. f_equal.
  rewrite !map_app, !dropna_app. simpl. rewrite Hkey.
  apply map_ext. intros k. do 3 f_equal.
  rewrite !filter_app. simpl.
  unfold Presentation.in_group at 2. now rewrite Hkey.
Qed.

Lemma record_without_key_is_not_aggregated_witness :
  Presentation.daily_sales Presentation.kahan_sum
    (Presentation.Cleaned
       ([] ++ {| Presentation.Sales_Value := SInt 5;
                 Presentation.c_date := Some 20200101%Z;
                 Presentation.c_region := None |} :: [])) =
  Presentation.daily_sales Presentation.kahan_sum (Presentation.Cleaned ([] ++ [])).
Proof.
  apply (@record_without_key_is_not_aggregated Presentation.kahan_sum []
           {| Presentation.Sales_Value := SInt 5;
              Presentation.c_date := Some 20200101%Z;
              Presentation.c_region := None |} []).
  right. reflexivity.
Defined.

Lemma key_leb_total a b : key_le a b \/ key_le b a.
Proof.
  unfold key_le, Presentation.key_leb. destruct a as [d g], b as [d' g']. simpl.
  destruct (Z.ltb_spec d d') as [Hlt | Hge]; [now left |].
  destruct (Z.ltb_spec d' d) as [Hlt' | Hge']; [now right |].
  assert (d = d') by lia. subst. rewrite Z.eqb_refl. simpl.
  apply String.leb_total.
Qed.

Lemma insert_sorted k l : Sorted key_le l -> Sorted key_le (Presentation.insert k l).
Proof.
  induction 1 as [| k' l Hl IH Hhd]; simpl; [repeat constructor |].
  destruct (Presentation.key_leb k k') eqn:Hk.
  - constructor; [now constructor | now constructor].
  - constructor; [assumption |].
    assert (Hk' : key_le k' k).
    { destruct (key_leb_total k k') as [H | H]; [unfold key_le in H; congruence | assumption]. }
    destruct l as [| k'' l]; simpl; [now constructor |].
    destruct (Presentation.key_leb k k''); constructor; [assumption |].
    now inversion Hhd.
Qed.

Lemma sort_sorted l : Sorted key_le (Presentation.sort l).
Proof. induction l; simpl; [constructor | now apply insert_sorted]. Qed.

(** X13.  The points of [daily_sales] come in the order of their keys: by
    date, and for one date by region. *)
Theorem daily_sales_points_are_ordered float_sum rows points :
  Presentation.daily_sales float_sum (Presentation.Cleaned rows) = Ok points ->
  Sorted key_le (map point_key points).
Proof.
  simpl. intros [= <-]. rewrite map_map. unfold point_key. simpl.
  erewrite map_ext; [rewrite map_id; apply sort_sorted |].
  now intros [d g].
Qed.

Lemma daily_sales_points_are_ordered_witness :
  Sorted key_le [(20190101%Z, "north"); (20200101%Z, "east"); (20200101%Z, "north")].
Proof.
  apply (@daily_sales_points_are_ordered Presentation.kahan_sum
           [{| Presentation.Sales_Value := SInt 1; Presentation.c_date := Some 20200101%Z;
               Presentation.c_region := Some "north" |};
            {| Presentation.Sales_Value := SInt 2; Presentation.c_date := Some 20200101%Z;
               Presentation.c_region := Some "east" |};
            {| Presentation.Sales_Value := SInt 3; Presentation.c_date := Some 20190101%Z;
               Presentation.c_region := Some "north" |}]
           [{| Presentation.p_date := 20190101; Presentation.p_region := "north";
               Presentation.total := SInt 3 |};
            {| Presentation.p_date := 20200101; Presentation.p_region := "east";
               Presentation.total := SInt 2 |};
            {| Presentation.p_date := 20200101; Presentation.p_region := "north";
               Presentation.total := SInt 1 |}]).
  vm_compute. reflexivity.
Defined.

(* ------------------------------------------------------------------ *)
(** *** Totals in an int64 quantity column *)

Lemma wrap64_in_range z : Int64.in_range z = true -> Int64.wrap64 z = z.
Proof.
  unfold Int64.in_range, Int64.wrap64, Int64.min_int, Int64.max_int.
  rewrite andb_true_iff, !Z.leb_le.
  change (2 ^ 63)%Z with 9223372036854775808%Z.
  change (2 ^ 64)%Z with 18446744073709551616%Z.
  intros [H1 H2]. rewrite Z.mod_small; lia.
Qed.

(** The total of the row at one position of a summary. *)
Lemma summarize_row cols dt pink k out cents i r c :
  Ingestion.summarize cols dt pink k = Ok out ->
  Ingestion.price_cents k (map Ingestion.price pink) = Ok cents ->
  nth_error pink i = Some r ->
  nth_error cents i = Some c ->
  exists o,
    nth_error out i = Some o /\
    truediv_100 (mul_cell dt c (fillna_0_cell dt (Ingestion.quantity r)))
    = Ok (Ingestion.sales o).
Proof.
  unfold Ingestion.summarize. intros H Hcents Hi Hc.
  destruct (Ingestion.getitem cols pink "price" Ingestion.price) as [prices | e] eqn:Hp;
    simpl in H; [| discriminate].
  apply getitem_ok in Hp. subst prices. rewrite Hcents in H. simpl in H.
  destruct (Ingestion.getitem cols pink "quantity" _) as [qs | e] eqn:Hq;
    simpl in H; [| discriminate].
  destruct (mapM truediv_100 _) as [sales_numeric | e] eqn:Hm; simpl in H; [| discriminate].
  destruct (Ingestion.getitem cols pink "date" _) as [dates | e] eqn:Hd;
    simpl in H; [| discriminate].
  destruct (Ingestion.getitem cols pink "region" _) as [regions | e] eqn:Hr;
    simpl in H; [| discriminate].
  apply getitem_ok in Hq, Hd, Hr. subst qs dates regions.
  inversion H; subst out; clear H.
  match type of Hm with
  | mapM _ ?l = _ =>
      assert (Hx : nth_error l i =
                   Some (mul_cell dt c (fillna_0_cell dt (Ingestion.quantity r))))
  end.
  { rewrite nth_error_map.
    rewrite (nth_error_combine _ _ _ Hc (b := fillna_0_cell dt (Ingestion.quantity r)));
      [reflexivity |].
    now rewrite nth_error_map, Hi. }
  destruct (mapM_nth_error _ _ i Hm Hx) as (y & Hy & Hyi).
  eexists. split.
  - rewrite nth_error_map.
    rewrite (nth_error_combine _ _ _ Hyi (b := (Ingestion.date r, Ingestion.region r)));
      [reflexivity |].
    apply nth_error_combine; now rewrite nth_error_map, Hi.
  - exact Hy.
Qed.

(** X14.  In a file whose quantity column holds only integers of the int64
    range (an int64 column), the total of a row that reaches the summary is
    the int64 product of its cents and its quantity, divided by 100.0: the
    exact product when it fits int64, and the product wrapped around
    otherwise. *)
Theorem int64_total_is_product_of_cents_and_quantity
    product_filter default_symbol currency_symbol df symbol out symbol' k cents i r c q :
  Ingestion.process_file product_filter default_symbol currency_symbol (Ok df)
  = (symbol, Ok (Some out)) ->
  infer_dtype (map Ingestion.quantity (Ingestion.rows df)) = int64 ->
  (forall r' z, In r' (Ingestion.rows df) -> Ingestion.quantity r' = PyInt z ->
                Int64.in_range z = true) ->
  Ingestion.symbol_and_slice default_symbol currency_symbol (Ingestion.columns df)
    (matching_rows product_filter (Ok df)) = Ok (symbol', k) ->
  Ingestion.price_cents k (map Ingestion.price (matching_rows product_filter (Ok df)))
  = Ok cents ->
  nth_error (matching_rows product_filter (Ok df)) i = Some r ->
  nth_error cents i = Some c ->
  Ingestion.quantity r = PyInt q ->
  exists o,
    nth_error out i = Some o /\
    Ingestion.sales o = dollars (Int64.wrap64 (c * q)) /\
    (Int64.in_range (c * q) = true -> Ingestion.sales o = dollars (c * q)).
Proof.
  unfold Ingestion.process_file, matching_rows.
  intros Hp Hdt _ Hsym Hcents Hi Hc Hq.
  destruct (Ingestion.getitem _ _ "product" _); [| discriminate].
  destruct (filter _ _) as [| r0 pink] eqn:Hf; [discriminate |].
  rewrite Hsym in Hp.
  destruct (Ingestion.summarize _ _ _ _) as [summary_df | e] eqn:Hs; [| discriminate].
  simpl in Hp. inversion Hp; subst; clear Hp.
  rewrite Hdt in Hs.
  destruct (@summarize_row _ _ _ _ _ _ _ _ _ Hs Hcents Hi Hc) as (o & Ho & Htotal).
  rewrite Hq in Htotal. unfold fillna_0_cell, mul_cell, truediv_100 in Htotal.
  injection Htotal as Hsales. fold (dollars (Int64.wrap64 (c * q))) in Hsales.
  exists o. split; [assumption |]. split; [now rewrite <- Hsales |].
  intros Hfit. rewrite <- Hsales. now rewrite (wrap64_in_range _ Hfit).
Qed.

Lemma int64_total_is_product_of_cents_and_quantity_witness :
  exists o,
    nth_error [{| Ingestion.sales := dollars 1500; Ingestion.s_date := Some "2020-01-01";
                  Ingestion.s_region := Some "north" |};
               {| Ingestion.sales := dollars 600; Ingestion.s_date := Some "2020-01-01";
                  Ingestion.s_region := Some "north" |}] 1 = Some o /\
    Ingestion.sales o = dollars (Int64.wrap64 (200 * 3)) /\
    (Int64.in_range (200 * 3) = true -> Ingestion.sales o = dollars (200 * 3)).
Proof.
  apply (@int64_total_is_product_of_cents_and_quantity "pink morsel" "$" None
           {| Ingestion.columns := Scenario.required_columns;
              Ingestion.rows :=
                [Scenario.transaction "pink morsel" "$3.00" 5 "2020-01-01" "north";
                 Scenario.transaction "pink morsel" "$2.00" 3 "2020-01-01" "north";
                 Scenario.transaction "choc" "$5.00" 2 "2020-01-01" "north"] |}
           (Some "$") _ "$" 1%nat [300%Z; 200%Z] 1%nat
           (Scenario.transaction "pink morsel" "$2.00" 3 "2020-01-01" "north") 200%Z 3%Z).
  - vm_compute; reflexivity.
  - vm_compute; reflexivity.
  - simpl. intros r' z [<- | [<- | [<- | []]]] [= <-]; reflexivity.
  - vm_compute; reflexivity.
  - vm_compute; reflexivity.
  - vm_compute; reflexivity.
  - vm_compute; reflexivity.
  - vm_compute; reflexivity.
Defined.

(* ------------------------------------------------------------------ *)
(** *** The symbol of a run *)

(** X15.  The symbol of a run is decided by the first file that has rows of
    the product: when that file has the columns [product] and [price] and
    the first of its prices that is not missing is a non-empty string, the
    symbol written in every record is the first character of that string,
    whatever the later files hold and even if that file itself is then
    skipped by the handler. *)
Theorem run_symbol_is_first_character_of_first_price glob cfg pre df post s :
  glob (Ingestion.get cfg "data_directory" "data") = pre ++ Ok df :: post ->
  Forall (fun file =>
            no_qualifying_rows (Ingestion.get cfg "product_filter" "pink morsel") file = true) pre ->
  In "product" (Ingestion.columns df) ->
  In "price" (Ingestion.columns df) ->
  Ingestion.first_price_string
    (map Ingestion.price
         (matching_rows (Ingestion.get cfg "product_filter" "pink morsel") (Ok df))) = Some s ->
  s <> EmptyString ->
  run_symbol glob cfg = PyStr.first_char s.
Proof.
  intros Hglob Hpre Hproduct Hprice Hfirst Hs.
  unfold run_symbol, Ingestion.run_loop. rewrite Hglob, fold_left_app. simpl fold_left.
  rewrite (@loop_without_rows _ _ pre (None, []) Hpre).
  assert (Hstep : fst (Ingestion.step (Ingestion.get cfg "product_filter" "pink morsel")
                         (Ingestion.get cfg "default_currency_symbol" "$") (None, []) (Ok df))
                  = Some (PyStr.first_char s)).
  { unfold Ingestion.step, Ingestion.process_file. simpl fst.
    rewrite getitem_present by assumption.
    unfold matching_rows in Hfirst.
    destruct (filter _ _) as [| r0 pink] eqn:Hf; [discriminate |].
    unfold Ingestion.symbol_and_slice.
    rewrite getitem_present by assumption. cbn [bind]. rewrite Hfirst.
    unfold Ingestion.detect.
    destruct s as [| ch s']; [congruence |]. simpl.
    destruct (Ingestion.summarize _ _ _ _); reflexivity. }
  destruct (Ingestion.step _ _ (None, []) (Ok df)) as [symbol data].
  simpl in Hstep. subst symbol.
  now rewrite loop_symbol_fixed.
Qed.

Lemma run_symbol_is_first_character_of_first_price_witness :
  run_symbol
    (Scenario.directory [Raise EmptyDataError;
                         Scenario.one_sale "E3.00" 5;
                         Scenario.one_sale "$3.00" 5]) [] = "E".
Proof.
  apply (@run_symbol_is_first_character_of_first_price
           (Scenario.directory [Raise EmptyDataError;
                                Scenario.one_sale "E3.00" 5;
                                Scenario.one_sale "$3.00" 5]) []
           [Raise EmptyDataError]
           {| Ingestion.columns := Scenario.required_columns;
              Ingestion.rows :=
                [Scenario.transaction "pink morsel" "E3.00" 5 "2020-01-01" "north"] |}
           [Scenario.one_sale "$3.00" 5] "E3.00").
  - reflexivity.
  - repeat constructor.
  - simpl. tauto.
  - simpl. tauto.
  - reflexivity.
  - discriminate.
Defined.

(* ------------------------------------------------------------------ *)
(** *** Rows whose price does not parse *)












